(** * CNTK SGDLib: the SGD parameter block and the gradient package

    A shallow embedding of the header-only code of
    [Source/SGDLib/SGD.h] and [Source/SGDLib/IDistGradAggregator.h]:
    the learning-rate and momentum conversion helpers of [SGDParams],
    the parallel-training predicates of [SGD<ElemType>], the
    [RMSPropInfo] defaults and [GradientPackage::DeviceId].

    Machine integers are integers of [Z] with the wrap-around written
    out, C++ exceptions are the error branch of a small result monad,
    and IEEE-754 values are [spec_float]s of the standard library,
    rounded to nearest-even at the precision of the C++ type. *)

From stdpp Require Import base option fin_maps gmap.
From Stdlib Require Import ZArith List String Bool Lia.
From Stdlib Require Import Floats.SpecFloat.
Import ListNotations.

Local Open Scope Z_scope.

(** ** Machine integers *)

Module CInt.

(** [size_t] is the 64-bit unsigned type of the x64 builds. *)
Definition SIZE_BITS : Z := 64.
Definition SIZE_MODULUS : Z := 2 ^ SIZE_BITS.

Definition is_size_t (z : Z) : Prop := 0 <= z < SIZE_MODULUS.

(** [int] is the 32-bit signed type. *)
Definition INT_MIN : Z := - 2 ^ 31.
Definition INT_MAX : Z := 2 ^ 31 - 1.

Definition is_int (z : Z) : Prop := INT_MIN <= z <= INT_MAX.

(** Conversion of a signed value to [size_t], as the usual arithmetic
    conversions do for a mixed [int]/[size_t] operation and as
    parameter passing does for an [int] argument. *)
Definition to_size_t (z : Z) : Z := z mod SIZE_MODULUS.

(** Unsigned multiplication, [a * b] on [size_t]. *)
Definition size_mul (a b : Z) : Z := (a * b) mod SIZE_MODULUS.

End CInt.

(** ** Exceptions *)

(** A call either returns or leaves through [RuntimeError(msg)]. *)
Inductive result (A : Type) : Type :=
| Ok (a : A)
| RuntimeError (msg : string).

Arguments Ok {A} a.
Arguments RuntimeError {A} msg.

Definition result_bind {A B : Type} (c : result A) (k : A -> result B) : result B :=
  match c with
  | Ok a => k a
  | RuntimeError msg => RuntimeError msg
  end.

Declare Scope result_scope.
Delimit Scope result_scope with result.
Notation "'let*' x ':=' c 'in' k" := (result_bind c (fun x => k))
  (at level 10, x name, c at level 100, k at level 200) : result_scope.

Definition raises {A : Type} (c : result A) : bool :=
  match c with
  | Ok _ => false
  | RuntimeError _ => true
  end.

(** ** Floating point *)

(** [float]: IEEE-754 binary32. *)
Module Float32.
Definition prec : Z := 24.
Definition emax : Z := 128.

(** Integer to [float], round to nearest even. *)
Definition of_size_t (z : Z) : spec_float := binary_normalize prec emax z 0 false.
Definition div : spec_float -> spec_float -> spec_float := SFdiv prec emax.

(** The [float] nearest to the decimal literal [num / den]. *)
Definition of_decimal (num den : Z) : spec_float :=
  div (binary_normalize prec emax num 0 false) (binary_normalize prec emax den 0 false).
End Float32.

(** [double]: IEEE-754 binary64. *)
Module Float64.
Definition prec : Z := 53.
Definition emax : Z := 1024.

Definition of_size_t (z : Z) : spec_float := binary_normalize prec emax z 0 false.
Definition div : spec_float -> spec_float -> spec_float := SFdiv prec emax.
Definition one : spec_float := SFone prec emax.

(** Widening of a [float]; every binary32 value is a binary64 value,
    so only the representation of the mantissa changes. *)
Definition of_float32 (x : spec_float) : spec_float :=
  match x with
  | S754_finite s m e => binary_normalize prec emax (cond_Zopp s (Zpos m)) e s
  | _ => x
  end.

(** The [double] nearest to the decimal literal [num / den]
    ([num] and [den] below 2^53, so both convert exactly). *)
Definition of_decimal (num den : Z) : spec_float :=
  div (binary_normalize prec emax num 0 false) (binary_normalize prec emax den 0 false).
End Float64.

(** ** argvector *)

(** Modelled from the spec: the class template [argvector] ([floatargvector],
    [intargvector]) is declared outside these headers. The schedule arrays
    are non-empty, and an index past the end resolves to the last element,
    never to an error. *)
Record argvector (A : Type) : Type := mk_argvector {
  av_first : A;
  av_rest : list A
}.

Arguments mk_argvector {A} av_first av_rest.
Arguments av_first {A} a.
Arguments av_rest {A} a.

Definition av_items {A : Type} (v : argvector A) : list A := av_first v :: av_rest v.

Definition av_size {A : Type} (v : argvector A) : Z := Z.of_nat (List.length (av_items v)).

(** [v[i]] for a [size_t] index. *)
Definition av_at {A : Type} (v : argvector A) (i : Z) : A :=
  if av_size v <=? i
  then List.last (av_items v) (av_first v)
  else List.nth (Z.to_nat i) (av_items v) (av_first v).

(** ** Configuration types of SGD.h *)

(** The checkpoint format versions. Version 1 is the layout written
    before files carried a version number. *)
Definition CNTK_CHECKPOINT_VERSION_1 : Z := 1.
Definition CNTK_CHECKPOINT_VERSION_2 : Z := 2.
Definition CURRENT_CNTK_CHECKPOINT_VERSION : Z := CNTK_CHECKPOINT_VERSION_2.

(** [enum class ParallelizationMethod : int]. The data-parallel methods
    occupy the lower 8 bits, the model-parallel ones the next 8. *)
Inductive ParallelizationMethod : Type :=
| none
| dataParallelSGD
| modelAveragingSGD
| blockMomentumSGD
| dataParallelASGD
| modelParallelSGD.

Definition method_value (m : ParallelizationMethod) : Z :=
  match m with
  | none => 0
  | dataParallelSGD => 1
  | modelAveragingSGD => 2
  | blockMomentumSGD => 3
  | dataParallelASGD => 4
  | modelParallelSGD => Z.shiftl 1 8
  end.

(** [a == b] on the enumeration compares the underlying integers. *)
Definition method_eqb (a b : ParallelizationMethod) : bool :=
  method_value a =? method_value b.

(** [struct RMSPropInfo] with its default constructor. *)
Record RMSPropInfo : Type := mk_RMSPropInfo {
  rpi_gamma : spec_float;
  rpi_inc : spec_float;
  rpi_dec : spec_float;
  rpi_max : spec_float;
  rpi_min : spec_float
}.

Definition RMSPropInfo_default : RMSPropInfo := {|
  rpi_gamma := Float64.of_decimal 99 100;   (* gamma = 0.99 *)
  rpi_inc := Float64.of_decimal 12 10;      (* inc = 1.2 *)
  rpi_dec := Float64.of_decimal 75 100;     (* dec = 0.75 *)
  rpi_max := Float64.of_decimal 100 10;     (* max = 10.0 *)
  rpi_min := Float64.of_decimal 1 10        (* min = 0.1 *)
|}.

(** The MPI wrapper is used here only through its pointer; [None] is
    [nullptr]. *)
Record MPIWrapper : Type := mk_MPIWrapper {
  NumNodesInUse : Z;
  CurrentNodeRank : Z
}.

Definition MPIWrapperPtr : Type := option MPIWrapper.

(** The members of [SGDParams] that the inline members read or write. *)
Record SGDParams : Type := mk_SGDParams {
  m_learningRatesParam : argvector spec_float;            (* floatargvector *)
  m_learningRatesSpecifiedForMBSize : argvector Z;        (* intargvector: 1 for per sample, m_mbSize[] for per MB *)
  m_momentumParam : argvector spec_float;                 (* floatargvector *)
  m_momentumSpecifiedForMBSize : argvector Z;             (* intargvector *)
  m_mbSize : argvector Z;                                 (* intargvector *)
  m_truncated : bool;
  m_maxEpochs : Z;                                        (* size_t *)
  m_rpi : RMSPropInfo;
  m_mpi : MPIWrapperPtr;
  m_parallelizationMethod : ParallelizationMethod;
  m_parallelizationStartEpochNum : Z                      (* int *)
}.

Definition with_mpi (mpi : MPIWrapperPtr) (p : SGDParams) : SGDParams :=
  {| m_learningRatesParam := m_learningRatesParam p;
     m_learningRatesSpecifiedForMBSize := m_learningRatesSpecifiedForMBSize p;
     m_momentumParam := m_momentumParam p;
     m_momentumSpecifiedForMBSize := m_momentumSpecifiedForMBSize p;
     m_mbSize := m_mbSize p;
     m_truncated := m_truncated p;
     m_maxEpochs := m_maxEpochs p;
     m_rpi := m_rpi p;
     m_mpi := mpi;
     m_parallelizationMethod := m_parallelizationMethod p;
     m_parallelizationStartEpochNum := m_parallelizationStartEpochNum p |}.

Definition with_parallelizationMethod (m : ParallelizationMethod) (p : SGDParams) : SGDParams :=
  {| m_learningRatesParam := m_learningRatesParam p;
     m_learningRatesSpecifiedForMBSize := m_learningRatesSpecifiedForMBSize p;
     m_momentumParam := m_momentumParam p;
     m_momentumSpecifiedForMBSize := m_momentumSpecifiedForMBSize p;
     m_mbSize := m_mbSize p;
     m_truncated := m_truncated p;
     m_maxEpochs := m_maxEpochs p;
     m_rpi := m_rpi p;
     m_mpi := m_mpi p;
     m_parallelizationMethod := m;
     m_parallelizationStartEpochNum := m_parallelizationStartEpochNum p |}.

(** ** SGDParams: per-sample learning rate and momentum *)

Section SGDParamsMembers.

Local Open Scope result_scope.

(** [pow] of the C library on [double]s. Its results are not fixed by
    IEEE-754, so the members are read for any such function. *)
Variable pow : spec_float -> spec_float -> spec_float.

Variable this : SGDParams.

(** [size_t FixUpEffectiveMBSize(size_t specifiedMBSize, size_t numParallelSequences) const] *)
Definition FixUpEffectiveMBSize (specifiedMBSize numParallelSequences : Z) : result Z :=
  if m_truncated this && (1 <? specifiedMBSize)
  then
    if numParallelSequences =? 0
    then RuntimeError "Learning rate and momentum are not supported per minibatch, please specify them per sample."
    else Ok (CInt.size_mul specifiedMBSize numParallelSequences)
  else Ok specifiedMBSize.

(** [double GetLearningRatePerSample(size_t epoch, size_t numParallelSequences) const].
    The rate is a [float]; the divisor is converted to [float], the
    quotient is a [float] and is widened on return. The [int] entry of
    the schedule becomes the [size_t] argument of the fix-up. *)
Definition GetLearningRatePerSample (epoch numParallelSequences : Z) : result spec_float :=
  let* mbSize :=
    FixUpEffectiveMBSize
      (CInt.to_size_t (av_at (m_learningRatesSpecifiedForMBSize this) epoch))
      numParallelSequences in
  Ok (Float64.of_float32
        (Float32.div (av_at (m_learningRatesParam this) epoch) (Float32.of_size_t mbSize))).

(** [double GetMomentumPerSample(size_t epoch, size_t numParallelSequences) const].
    [1.0 / size] is a [double] division, and [pow] takes the momentum
    widened to [double]. *)
Definition GetMomentumPerSample (epoch numParallelSequences : Z) : result spec_float :=
  let* mbSize :=
    FixUpEffectiveMBSize
      (CInt.to_size_t (av_at (m_momentumSpecifiedForMBSize this) epoch))
      numParallelSequences in
  Ok (pow (Float64.of_float32 (av_at (m_momentumParam this) epoch))
          (Float64.div Float64.one (Float64.of_size_t mbSize))).

(** [ParallelizationMethod GetParallelizationMethod() const] *)
Definition GetParallelizationMethod : ParallelizationMethod :=
  match m_mpi this with
  | None => none
  | Some _ => m_parallelizationMethod this
  end.

End SGDParamsMembers.

(** ** SGD<ElemType>: MPI initialisation and the parallel-training predicates *)

(** [void InitMPI(const MPIWrapperPtr& mpi)] *)
Definition InitMPI (mpi : MPIWrapperPtr) (this : SGDParams) : SGDParams :=
  let this := with_mpi mpi this in
  match m_mpi this with
  | None => with_parallelizationMethod none this
  | Some _ => this
  end.

Section ParallelPredicates.

Variable this : SGDParams.

(** [epochNumber >= m_parallelizationStartEpochNum] with a [size_t] on
    the left and an [int] on the right: the [int] is converted to
    [size_t] before the comparison. *)
Definition parallelizationStarted (epochNumber : Z) : bool :=
  CInt.to_size_t (m_parallelizationStartEpochNum this) <=? epochNumber.

(** [bool UsingGradientAggregation(size_t epochNumber) const] *)
Definition UsingGradientAggregation (epochNumber : Z) : bool :=
  method_eqb (GetParallelizationMethod this) dataParallelSGD
  && parallelizationStarted epochNumber.

(** [bool UsingModelAggregation(size_t epochNumber) const] *)
Definition UsingModelAggregation (epochNumber : Z) : bool :=
  (method_eqb (GetParallelizationMethod this) modelAveragingSGD
   || method_eqb (GetParallelizationMethod this) blockMomentumSGD)
  && parallelizationStarted epochNumber.

(** [bool UsingAsyncGradientAggregation(size_t epochNumber)] *)
Definition UsingAsyncGradientAggregation (epochNumber : Z) : bool :=
  method_eqb (GetParallelizationMethod this) dataParallelASGD
  && parallelizationStarted epochNumber.

(** [bool UsingParallelTrain(size_t epochNumber)] *)
Definition UsingParallelTrain (epochNumber : Z) : bool :=
  UsingGradientAggregation epochNumber
  || UsingModelAggregation epochNumber
  || UsingAsyncGradientAggregation epochNumber.

End ParallelPredicates.

(** ** GradientPackage (IDistGradAggregator.h) *)

Variant ElemKind : Type := elem_float | elem_half | elem_double.

(** [Matrix<ElemType>] is declared outside these headers; the package
    only asks a matrix for its device. A [shared_ptr] of the package
    always points to a matrix. *)
Record Matrix (k : ElemKind) : Type := mk_Matrix {
  GetDeviceId : Z;
  GetNumRows : Z;
  GetNumCols : Z
}.

Arguments mk_Matrix {k} GetDeviceId GetNumRows GetNumCols.
Arguments GetDeviceId {k} m.
Arguments GetNumRows {k} m.
Arguments GetNumCols {k} m.

Record GradientPackage : Type := mk_GradientPackage {
  m_gradFloat : list (Matrix elem_float);
  m_gradHalf : list (Matrix elem_half);
  m_gradDouble : list (Matrix elem_double)
}.

(** [std::vector::empty] *)
Definition vec_empty {A : Type} (v : list A) : bool :=
  match v with
  | [] => true
  | _ :: _ => false
  end.

(** [bool IsEmpty()] *)
Definition IsEmpty (g : GradientPackage) : bool :=
  vec_empty (m_gradFloat g) && vec_empty (m_gradHalf g) && vec_empty (m_gradDouble g).

(** [int DeviceId()]. Each [if (!v.empty()) return v[0]->GetDeviceId();] is
    the [::] case of the match on [v], and the final [else] the case where
    all three vectors are [[]]. *)
Definition DeviceId (g : GradientPackage) : result Z :=
  match m_gradFloat g with
  | mf :: _ => Ok (GetDeviceId mf)
  | [] =>
    match m_gradHalf g with
    | mh :: _ => Ok (GetDeviceId mh)
    | [] =>
      match m_gradDouble g with
      | md :: _ => Ok (GetDeviceId md)
      | [] => RuntimeError "The Gradient Package is empty."
      end
    end
  end.

(** ** Checkpoints *)

(** Modelled from the spec: the state a checkpoint restores, that is the
    out-parameters of [LoadCheckPointInfo]: cumulative samples seen, the
    learning rate per sample, the smoothed-gradient state of every
    parameter with its smoothed count, the previous criterion and the
    minibatch size in effect. *)
Record ResumeState : Type := mk_ResumeState {
  totalSamplesSeen : Z;
  learnRatePerSample : spec_float;
  smoothedGradients : list (list spec_float);
  smoothedCounts : list spec_float;
  prevCriterion : spec_float;
  minibatchSize : Z
}.

(** Modelled from the spec: a checkpoint file of the storage. The format
    version is a single leading integer; a file of the oldest layout has
    none and counts as version 1 ([CNTK_CHECKPOINT_VERSION_1]: no version
    number). The record behind it is one unit, absent when the file is
    short or corrupt. *)
Record CheckPointFile : Type := mk_CheckPointFile {
  ckp_leading_version : option Z;
  ckp_record : option ResumeState
}.

(** Modelled from the spec: the format version of a file, the leading
    integer when there is one and version 1 otherwise. *)
Definition ckp_version (f : CheckPointFile) : Z :=
  match ckp_leading_version f with
  | Some v => v
  | None => CNTK_CHECKPOINT_VERSION_1
  end.

(** Modelled from the spec: the versions a loader knows are the two this
    header defines. *)
Definition known_checkpoint_version (v : Z) : bool :=
  (v =? CNTK_CHECKPOINT_VERSION_1) || (v =? CNTK_CHECKPOINT_VERSION_2).

(** Modelled from the spec: the checkpoint storage holds one named record
    per epoch. *)
Abbreviation CheckPointStorage := (gmap nat CheckPointFile).

(** Modelled from the spec: the reading of one file by [LoadCheckPointInfo],
    whose body is in SGD.cpp, outside these headers. A loader rejects an
    unknown version rather than guess, before it reads the record, and a file
    that fails the integrity check is a fatal error. *)
Definition LoadCheckPointFile (f : CheckPointFile) : result ResumeState :=
  if known_checkpoint_version (ckp_version f)
  then
    match ckp_record f with
    | Some st => Ok st
    | None => RuntimeError "checkpoint file is short or corrupt"
    end
  else RuntimeError "unknown checkpoint version".

(** Modelled from the spec: [LoadCheckPointInfo] opens the checkpoint of the
    epoch, which its caller has found to exist, and reads it. *)
Definition LoadCheckPointInfo (storage : CheckPointStorage) (epochNumber : Z)
  : result ResumeState :=
  match storage !! Z.to_nat epochNumber with
  | Some f => LoadCheckPointFile f
  | None => RuntimeError "cannot open checkpoint file"
  end.

(** Modelled from the spec: [TryLoadCheckPointInfo], whose body is in
    SGD.cpp. No checkpoint for the epoch is not an error: the call returns
    false ([None] here) and the caller starts cold; a file that exists is
    loaded, and a failed version or integrity check is fatal. *)
Definition TryLoadCheckPointInfo (storage : CheckPointStorage) (epochNumber : Z)
  : result (option ResumeState) :=
  match storage !! Z.to_nat epochNumber with
  | None => Ok None
  | Some _ =>
    result_bind (LoadCheckPointInfo storage epochNumber) (fun st => Ok (Some st))
  end.

(** Modelled from the spec: a checkpoint is valid when it passes the version
    and integrity checks of the loader. *)
Definition valid_checkpoint (f : CheckPointFile) : bool :=
  negb (raises (LoadCheckPointFile f)).

(** Modelled from the spec: [DetermineStartEpoch], whose body is in
    SGD.cpp. It scans the storage for the highest epoch with a valid
    checkpoint and returns it, or -1 if none exists. The spec gives
    [makeMode] no part in the result. *)
Definition DetermineStartEpoch (storage : CheckPointStorage) (makeMode : bool) : Z :=
  map_fold
    (fun (epoch : nat) (f : CheckPointFile) (best : Z) =>
       if valid_checkpoint f then Z.max (Z.of_nat epoch) best else best)
    (-1) storage.


(** ** Statements of the specification, for comparison *)

(** The fix-up as the specification words it: the specified minibatch size
    is multiplied by the number of parallel sequences whenever truncation
    is enabled. *)
Definition FixUp_whenever_truncated (this : SGDParams) (specifiedMBSize numParallelSequences : Z) : Z :=
  if m_truncated this
  then CInt.size_mul specifiedMBSize numParallelSequences
  else specifiedMBSize.

(** The three aggregation predicates of [SGD<ElemType>]. *)
Variant ParallelPredicate : Type :=
| GradientAggregation
| ModelAggregation
| AsyncGradientAggregation.

(** The predicate that matches a parallelization method, if any. *)
Definition matching_predicate (m : ParallelizationMethod) : option ParallelPredicate :=
  match m with
  | none => None
  | dataParallelSGD => Some GradientAggregation
  | modelAveragingSGD => Some ModelAggregation
  | blockMomentumSGD => Some ModelAggregation
  | dataParallelASGD => Some AsyncGradientAggregation
  | modelParallelSGD => None
  end.

Definition matches (m : ParallelizationMethod) (pr : ParallelPredicate) : bool :=
  match matching_predicate m, pr with
  | Some GradientAggregation, GradientAggregation => true
  | Some ModelAggregation, ModelAggregation => true
  | Some AsyncGradientAggregation, AsyncGradientAggregation => true
  | _, _ => false
  end.

(** The device of the first matrix of a package, looking at the [float]
    gradients first, then the [half] ones, then the [double] ones. *)
Definition first_device (g : GradientPackage) : option Z :=
  List.head (List.map GetDeviceId (m_gradFloat g)
             ++ List.map GetDeviceId (m_gradHalf g)
             ++ List.map GetDeviceId (m_gradDouble g)).

(** A [double] [x] is a nearest binary64 value to the decimal [num / den]:
    finite, in canonical form, and at most half a unit in the last place
    away. *)
Definition nearest_double (x : spec_float) (num den : Z) : bool :=
  match x with
  | S754_finite s m e =>
    let v := cond_Zopp s (Zpos m) in
    valid_binary Float64.prec Float64.emax x
    && (0 <? den)
    && (if e <? 0
        then 2 * Z.abs (v * den - num * 2 ^ (- e)) <=? den
        else 2 * Z.abs (v * 2 ^ e * den - num) <=? den * 2 ^ e)
  | _ => false
  end.

(** An epoch has a valid checkpoint when the storage holds a file for it
    that loads. *)
Definition has_valid_checkpoint (storage : CheckPointStorage) (epoch : nat) : Prop :=
  exists f, storage !! epoch = Some f /\ valid_checkpoint f = true.

(** The start epoch the specification asks for: the highest epoch with a
    valid checkpoint, or -1 if there is none. *)
Inductive highest_valid_epoch (storage : CheckPointStorage) : Z -> Prop :=
| no_valid_epoch :
    (forall epoch, ~ has_valid_checkpoint storage epoch) ->
    highest_valid_epoch storage (-1)
| last_valid_epoch (epoch : nat) :
    has_valid_checkpoint storage epoch ->
    (forall epoch', has_valid_checkpoint storage epoch' -> (epoch' <= epoch)%nat) ->
    highest_valid_epoch storage (Z.of_nat epoch).

(** ** Sample configurations *)

Definition two_nodes : MPIWrapper := {| NumNodesInUse := 2; CurrentNodeRank := 0 |}.

(** A constant schedule: learning rate 0.5 and momentum 0.9, both specified
    for the minibatch size [specifiedMBSize], minibatches of 20. *)
Definition constant_schedule (truncated : bool) (specifiedMBSize : Z)
    (mpi : MPIWrapperPtr) (method : ParallelizationMethod) (startEpoch : Z) : SGDParams := {|
  m_learningRatesParam := mk_argvector (Float32.of_decimal 1 2) [];
  m_learningRatesSpecifiedForMBSize := mk_argvector specifiedMBSize [];
  m_momentumParam := mk_argvector (Float32.of_decimal 9 10) [];
  m_momentumSpecifiedForMBSize := mk_argvector specifiedMBSize [];
  m_mbSize := mk_argvector 20 [];
  m_truncated := truncated;
  m_maxEpochs := 5;
  m_rpi := RMSPropInfo_default;
  m_mpi := mpi;
  m_parallelizationMethod := method;
  m_parallelizationStartEpochNum := startEpoch
|}.

(** Truncated training with rates given per sample. *)
Definition truncated_per_sample : SGDParams :=
  constant_schedule true 1 None none 0.

(** Data-parallel SGD configured from the first epoch, no MPI wrapper. *)
Definition data_parallel_without_mpi : SGDParams :=
  constant_schedule false 20 None dataParallelSGD 0.

(** Data-parallel SGD over MPI, starting at epoch 2 (0-based). *)
Definition data_parallel_from_2 : SGDParams :=
  constant_schedule false 20 (Some two_nodes) dataParallelSGD 2.

(** The same with a start epoch below zero. *)
Definition data_parallel_from_minus_1 : SGDParams :=
  constant_schedule false 20 (Some two_nodes) dataParallelSGD (-1).

Definition cold_state : ResumeState := {|
  totalSamplesSeen := 0;
  learnRatePerSample := Float64.of_decimal 1 40;
  smoothedGradients := [];
  smoothedCounts := [];
  prevCriterion := S754_zero false;
  minibatchSize := 20
|}.

Definition current_file : CheckPointFile :=
  {| ckp_leading_version := Some CURRENT_CNTK_CHECKPOINT_VERSION; ckp_record := Some cold_state |}.

Definition legacy_file : CheckPointFile :=
  {| ckp_leading_version := None; ckp_record := Some cold_state |}.

Definition future_file : CheckPointFile :=
  {| ckp_leading_version := Some 3; ckp_record := Some cold_state |}.

(** Checkpoints of epochs 1 and 3, and a file of an unknown version for
    epoch 5. *)
Definition sample_storage : CheckPointStorage :=
  <[3%nat := current_file]> (<[5%nat := future_file]> (<[1%nat := legacy_file]> ∅)).

Definition float_on_device_1 : GradientPackage := {|
  m_gradFloat := [];
  m_gradHalf := [mk_Matrix 1 3 3];
  m_gradDouble := [mk_Matrix 0 2 2]
|}.

(** ** SGD<ElemType>: the worker barrier *)

(** The two barriers [SynchronizeWorkers] can wait at: [m_mpi->WaitAll()]
    and [m_pASGDHelper->WaitAll()]. *)
Variant Barrier : Type :=
| MPIWaitAll (mpi : MPIWrapper)
| ASGDHelperWaitAll.

(** [void SynchronizeWorkers()], as the barriers it waits at, in order. Each
    of its two [if]s tests [m_mpi != nullptr] first. *)
Definition SynchronizeWorkers (this : SGDParams) : list Barrier :=
  (match m_mpi this with
   | Some mpi =>
     if negb (method_eqb (GetParallelizationMethod this) dataParallelASGD)
     then [MPIWaitAll mpi]
     else []
   | None => []
   end)
  ++
  (match m_mpi this with
   | Some _ =>
     if method_eqb (GetParallelizationMethod this) dataParallelASGD
     then [ASGDHelperWaitAll]
     else []
   | None => []
   end).

(** The devices of all matrices of a package. *)
Definition package_devices (g : GradientPackage) : list Z :=
  List.map GetDeviceId (m_gradFloat g)
  ++ List.map GetDeviceId (m_gradHalf g)
  ++ List.map GetDeviceId (m_gradDouble g).

(** ** Further sample configurations *)

(** Asynchronous data-parallel SGD over MPI, starting at epoch 2. *)
Definition async_from_2 : SGDParams :=
  constant_schedule false 20 (Some two_nodes) dataParallelASGD 2.

(** Truncated training with rates given for minibatches of 20. *)
Definition truncated_per_minibatch : SGDParams :=
  constant_schedule true 20 None none 0.

(** Truncated training with a schedule entry of -1 for the minibatch size. *)
Definition truncated_negative_size : SGDParams :=
  constant_schedule true (-1) None none 0.

(** A schedule entry of 0 for the minibatch size. *)
Definition zero_size : SGDParams :=
  constant_schedule false 0 None none 0.

(** Model-parallel SGD, the unsupported method, over MPI. *)
Definition model_parallel : SGDParams :=
  constant_schedule false 20 (Some two_nodes) modelParallelSGD 0.

Definition all_on_device_2 : GradientPackage := {|
  m_gradFloat := [];
  m_gradHalf := [mk_Matrix 2 3 3; mk_Matrix 2 3 1];
  m_gradDouble := [mk_Matrix 2 2 2]
|}.

(** * Properties *)

(** ** Machine integers *)

Lemma SIZE_MODULUS_value : CInt.SIZE_MODULUS = 18446744073709551616.
Proof. reflexivity. Qed.

Lemma to_size_t_range (z : Z) : CInt.is_size_t (CInt.to_size_t z).
Proof.
  unfold CInt.is_size_t, CInt.to_size_t. rewrite SIZE_MODULUS_value.
  apply Z.mod_pos_bound. lia.
Qed.

Lemma to_size_t_small (z : Z) : CInt.is_size_t z -> CInt.to_size_t z = z.
Proof.
  unfold CInt.is_size_t, CInt.to_size_t. intros Hz. now apply Z.mod_small.
Qed.

(** A negative [int] lands in the upper half of [size_t]. *)
Lemma to_size_t_negative (z : Z) :
  CInt.is_int z -> z < 0 -> CInt.to_size_t z = z + CInt.SIZE_MODULUS.
Proof.
  unfold CInt.is_int, CInt.INT_MIN, CInt.INT_MAX, CInt.to_size_t.
  rewrite SIZE_MODULUS_value. intros Hz Hneg.
  symmetry. apply Z.mod_unique with (q := -1); lia.
Qed.

Lemma to_size_t_int_nonneg (z : Z) :
  CInt.is_int z -> 0 <= z -> CInt.to_size_t z = z.
Proof.
  unfold CInt.is_int, CInt.INT_MIN, CInt.INT_MAX. intros Hz Hpos.
  apply to_size_t_small. unfold CInt.is_size_t. rewrite SIZE_MODULUS_value. lia.
Qed.

Lemma size_mul_range (a b : Z) : CInt.is_size_t (CInt.size_mul a b).
Proof. apply to_size_t_range. Qed.

(** ** argvector *)

Lemma av_at_in_range {A : Type} (v : argvector A) (i : Z) :
  0 <= i < av_size v ->
  av_at v i = List.nth (Z.to_nat i) (av_items v) (av_first v).
Proof.
  intros Hi. unfold av_at.
  destruct (Z.leb_spec (av_size v) i) as [Hle | Hlt]; [lia | reflexivity].
Qed.

Lemma av_at_past_end {A : Type} (v : argvector A) (i : Z) :
  av_size v <= i -> av_at v i = List.last (av_items v) (av_first v).
Proof.
  intros Hi. unfold av_at.
  destruct (Z.leb_spec (av_size v) i) as [Hle | Hlt]; [reflexivity | lia].
Qed.

Lemma av_at_first {A : Type} (v : argvector A) : av_at v 0 = av_first v.
Proof.
  rewrite av_at_in_range; [reflexivity |].
  unfold av_size, av_items. simpl List.length. lia.
Qed.

(** ** The fix-up of the effective minibatch size *)

Lemma FixUpEffectiveMBSize_raises (p : SGDParams) (specified n : Z) :
  raises (FixUpEffectiveMBSize p specified n)
  = m_truncated p && (1 <? specified) && (n =? 0).
Proof.
  unfold FixUpEffectiveMBSize.
  destruct (m_truncated p && (1 <? specified)); simpl; [| reflexivity].
  destruct (n =? 0); reflexivity.
Qed.

Lemma raises_bind_Ok {A B : Type} (c : result A) (f : A -> B) :
  raises (result_bind c (fun a => Ok (f a))) = raises c.
Proof. destruct c; reflexivity. Qed.

Lemma FixUpEffectiveMBSize_not_truncated (p : SGDParams) (specified n : Z) :
  m_truncated p = false -> FixUpEffectiveMBSize p specified n = Ok specified.
Proof. intros Ht. unfold FixUpEffectiveMBSize. now rewrite Ht. Qed.

Lemma FixUpEffectiveMBSize_per_sample (p : SGDParams) (specified n : Z) :
  specified <= 1 -> FixUpEffectiveMBSize p specified n = Ok specified.
Proof.
  intros Hs. unfold FixUpEffectiveMBSize.
  destruct (Z.ltb_spec 1 specified); [lia |].
  now rewrite andb_false_r.
Qed.

Lemma FixUpEffectiveMBSize_per_minibatch (p : SGDParams) (specified n : Z) :
  m_truncated p = true -> 1 < specified -> n <> 0 ->
  FixUpEffectiveMBSize p specified n = Ok (CInt.size_mul specified n).
Proof.
  intros Ht Hs Hn. unfold FixUpEffectiveMBSize. rewrite Ht.
  destruct (Z.ltb_spec 1 specified); [| lia].
  destruct (Z.eqb_spec n 0); [contradiction | reflexivity].
Qed.

(** C1, as amended. For every epoch and every number of parallel sequences,
    [GetLearningRatePerSample] is the schedule's rate of the epoch divided by
    the fixed-up minibatch size, and leaves through the fix-up's error when
    the fix-up raises. The fix-up multiplies the specified size by the number
    of parallel sequences (on [size_t]) only when truncation is enabled and
    the specified size is greater than 1; otherwise the specified size is
    the divisor as it is. *)
Theorem GetLearningRatePerSample_fixed_up (p : SGDParams) (e n : Z) :
  let rate := av_at (m_learningRatesParam p) e in
  let specified := CInt.to_size_t (av_at (m_learningRatesSpecifiedForMBSize p) e) in
  GetLearningRatePerSample p e n
  = match FixUpEffectiveMBSize p specified n with
    | Ok mbSize => Ok (Float64.of_float32 (Float32.div rate (Float32.of_size_t mbSize)))
    | RuntimeError msg => RuntimeError msg
    end
  /\ FixUpEffectiveMBSize p specified n
     = if m_truncated p && (1 <? specified)
       then if n =? 0
            then RuntimeError "Learning rate and momentum are not supported per minibatch, please specify them per sample."
            else Ok (CInt.size_mul specified n)
       else Ok specified.
Proof.
  intros rate specified. split.
  - unfold GetLearningRatePerSample, result_bind. fold specified. fold rate.
    destruct (FixUpEffectiveMBSize p specified n); reflexivity.
  - reflexivity.
Qed.

(** C1 as stated fails: with truncation enabled and a rate given per sample
    (specified size 1), two parallel sequences leave the divisor at 1, where
    the stated fix-up would make it 2; the rate 0.5 stays 0.5 and does not
    become 0.25. *)
Lemma GetLearningRatePerSample_per_sample_not_multiplied :
  m_truncated truncated_per_sample = true
  /\ FixUpEffectiveMBSize truncated_per_sample 1 2 = Ok 1
  /\ FixUp_whenever_truncated truncated_per_sample 1 2 = 2
  /\ GetLearningRatePerSample truncated_per_sample 0 2 = Ok (Float64.of_decimal 1 2)
  /\ GetLearningRatePerSample truncated_per_sample 0 2
     <> Ok (Float64.of_float32
              (Float32.div (av_at (m_learningRatesParam truncated_per_sample) 0)
                 (Float32.of_size_t
                    (FixUp_whenever_truncated truncated_per_sample
                       (CInt.to_size_t
                          (av_at (m_learningRatesSpecifiedForMBSize truncated_per_sample) 0))
                       2)))).
Proof.
  repeat split; try reflexivity.
  vm_compute. discriminate.
Qed.

(** C2. [FixUpEffectiveMBSize] raises exactly when truncation is enabled, the
    specified size is greater than 1 (a rate per minibatch, not per sample)
    and the number of parallel sequences is zero, and so do
    [GetLearningRatePerSample] and [GetMomentumPerSample] on the size their
    schedule specifies for the epoch; on every other input they return. *)
Theorem FixUpEffectiveMBSize_raises_exactly
    (pow : spec_float -> spec_float -> spec_float)
    (p : SGDParams) (specified e n : Z) :
  raises (FixUpEffectiveMBSize p specified n)
  = m_truncated p && (1 <? specified) && (n =? 0)
  /\ raises (GetLearningRatePerSample p e n)
     = m_truncated p
       && (1 <? CInt.to_size_t (av_at (m_learningRatesSpecifiedForMBSize p) e))
       && (n =? 0)
  /\ raises (GetMomentumPerSample pow p e n)
     = m_truncated p
       && (1 <? CInt.to_size_t (av_at (m_momentumSpecifiedForMBSize p) e))
       && (n =? 0).
Proof.
  split; [apply FixUpEffectiveMBSize_raises |].
  split.
  - unfold GetLearningRatePerSample. rewrite raises_bind_Ok.
    apply FixUpEffectiveMBSize_raises.
  - unfold GetMomentumPerSample. rewrite raises_bind_Ok.
    apply FixUpEffectiveMBSize_raises.
Qed.

(** C9. Where no error is raised, [GetMomentumPerSample] is [pow] of the
    schedule's momentum of the epoch and the reciprocal of the fixed-up
    minibatch size, a root and not a quotient; where the fix-up raises, so
    does [GetMomentumPerSample]. *)
Theorem GetMomentumPerSample_root
    (pow : spec_float -> spec_float -> spec_float)
    (p : SGDParams) (e n : Z) :
  let momentum := av_at (m_momentumParam p) e in
  let specified := CInt.to_size_t (av_at (m_momentumSpecifiedForMBSize p) e) in
  GetMomentumPerSample pow p e n
  = match FixUpEffectiveMBSize p specified n with
    | Ok mbSize =>
      Ok (pow (Float64.of_float32 momentum)
              (Float64.div Float64.one (Float64.of_size_t mbSize)))
    | RuntimeError msg => RuntimeError msg
    end.
Proof.
  intros momentum specified.
  unfold GetMomentumPerSample, result_bind. fold specified. fold momentum.
  destruct (FixUpEffectiveMBSize p specified n); reflexivity.
Qed.

(** ** The parallel-training predicates *)

Lemma method_eqb_eq (a b : ParallelizationMethod) : method_eqb a b = true <-> a = b.
Proof.
  split.
  - destruct a, b; (reflexivity || discriminate).
  - intros ->. unfold method_eqb. apply Z.eqb_refl.
Qed.

Lemma GetParallelizationMethod_nullptr (p : SGDParams) :
  m_mpi p = None -> GetParallelizationMethod p = none.
Proof. intros Hmpi. unfold GetParallelizationMethod. now rewrite Hmpi. Qed.

Lemma GetParallelizationMethod_with_mpi (p : SGDParams) (w : MPIWrapper) :
  m_mpi p = Some w -> GetParallelizationMethod p = m_parallelizationMethod p.
Proof. intros Hmpi. unfold GetParallelizationMethod. now rewrite Hmpi. Qed.

(** With a start epoch that is not negative the gate is the comparison of
    the two numbers. *)
Lemma parallelizationStarted_nonneg (p : SGDParams) (e : Z) :
  CInt.is_int (m_parallelizationStartEpochNum p) ->
  0 <= m_parallelizationStartEpochNum p ->
  parallelizationStarted p e = (m_parallelizationStartEpochNum p <=? e).
Proof.
  intros Hint Hpos. unfold parallelizationStarted.
  now rewrite to_size_t_int_nonneg.
Qed.

Lemma parallelizationStarted_below (p : SGDParams) (e : Z) :
  CInt.is_int (m_parallelizationStartEpochNum p) ->
  CInt.is_size_t e ->
  e < m_parallelizationStartEpochNum p ->
  parallelizationStarted p e = false.
Proof.
  intros Hint [He _] Hlt.
  rewrite parallelizationStarted_nonneg by (assumption || lia).
  apply Z.leb_gt. exact Hlt.
Qed.

(** A negative start epoch is compared as the [size_t] it converts to. *)
Lemma parallelizationStarted_negative (p : SGDParams) (e : Z) :
  CInt.is_int (m_parallelizationStartEpochNum p) ->
  m_parallelizationStartEpochNum p < 0 ->
  parallelizationStarted p e
  = (m_parallelizationStartEpochNum p + CInt.SIZE_MODULUS <=? e).
Proof.
  intros Hint Hneg. unfold parallelizationStarted.
  now rewrite to_size_t_negative.
Qed.

(** Each predicate is the match of the method in effect and the gate. *)
Lemma UsingGradientAggregation_spec (p : SGDParams) (e : Z) :
  UsingGradientAggregation p e
  = matches (GetParallelizationMethod p) GradientAggregation && parallelizationStarted p e.
Proof. unfold UsingGradientAggregation. now destruct (GetParallelizationMethod p). Qed.

Lemma UsingModelAggregation_spec (p : SGDParams) (e : Z) :
  UsingModelAggregation p e
  = matches (GetParallelizationMethod p) ModelAggregation && parallelizationStarted p e.
Proof. unfold UsingModelAggregation. now destruct (GetParallelizationMethod p). Qed.

Lemma UsingAsyncGradientAggregation_spec (p : SGDParams) (e : Z) :
  UsingAsyncGradientAggregation p e
  = matches (GetParallelizationMethod p) AsyncGradientAggregation && parallelizationStarted p e.
Proof. unfold UsingAsyncGradientAggregation. now destruct (GetParallelizationMethod p). Qed.

Lemma UsingParallelTrain_spec (p : SGDParams) (e : Z) :
  UsingParallelTrain p e
  = (matches (GetParallelizationMethod p) GradientAggregation
     || matches (GetParallelizationMethod p) ModelAggregation
     || matches (GetParallelizationMethod p) AsyncGradientAggregation)
    && parallelizationStarted p e.
Proof.
  unfold UsingParallelTrain.
  rewrite UsingGradientAggregation_spec, UsingModelAggregation_spec,
    UsingAsyncGradientAggregation_spec.
  destruct (parallelizationStarted p e).
  - now rewrite !andb_true_r.
  - now rewrite !andb_false_r.
Qed.

Ltac predicates_to_spec :=
  rewrite ?UsingParallelTrain_spec, ?UsingGradientAggregation_spec,
    ?UsingModelAggregation_spec, ?UsingAsyncGradientAggregation_spec.

(** C3, as amended. Below the start epoch none of the four predicates holds.
    At or above a start epoch that is not negative, a predicate holds exactly
    when it matches the method in effect, which is the configured method
    when there is an MPI wrapper and [none] when there is not; no aggregation
    predicate matches [none] or [modelParallelSGD], and [UsingParallelTrain]
    holds when one of the three does. *)
Theorem parallel_predicates_gated (p : SGDParams) (e : Z) :
  CInt.is_int (m_parallelizationStartEpochNum p) ->
  CInt.is_size_t e ->
  let method := GetParallelizationMethod p in
  (e < m_parallelizationStartEpochNum p ->
     UsingGradientAggregation p e = false
     /\ UsingModelAggregation p e = false
     /\ UsingAsyncGradientAggregation p e = false
     /\ UsingParallelTrain p e = false)
  /\ (0 <= m_parallelizationStartEpochNum p <= e ->
     UsingGradientAggregation p e = matches method GradientAggregation
     /\ UsingModelAggregation p e = matches method ModelAggregation
     /\ UsingAsyncGradientAggregation p e = matches method AsyncGradientAggregation
     /\ UsingParallelTrain p e
        = (matches method GradientAggregation
           || matches method ModelAggregation
           || matches method AsyncGradientAggregation))
  /\ method = match m_mpi p with
              | Some _ => m_parallelizationMethod p
              | None => none
              end.
Proof.
  intros Hint He method. split; [| split].
  - intros Hlt. predicates_to_spec.
    rewrite (parallelizationStarted_below p e Hint He Hlt).
    now rewrite !andb_false_r.
  - intros [Hpos Hle]. predicates_to_spec.
    rewrite (parallelizationStarted_nonneg p e Hint Hpos).
    apply Z.leb_le in Hle. rewrite Hle.
    now rewrite !andb_true_r.
  - subst method. unfold GetParallelizationMethod. now destruct (m_mpi p).
Qed.

Lemma parallel_predicates_gated_witness :
  (UsingGradientAggregation data_parallel_from_2 1 = false
   /\ UsingModelAggregation data_parallel_from_2 1 = false
   /\ UsingAsyncGradientAggregation data_parallel_from_2 1 = false
   /\ UsingParallelTrain data_parallel_from_2 1 = false)
  /\ (UsingGradientAggregation data_parallel_from_2 2 = true
      /\ UsingModelAggregation data_parallel_from_2 2 = false
      /\ UsingAsyncGradientAggregation data_parallel_from_2 2 = false
      /\ UsingParallelTrain data_parallel_from_2 2 = true).
Proof.
  split.
  - apply (parallel_predicates_gated data_parallel_from_2 1); vm_compute; intuition congruence.
  - apply (parallel_predicates_gated data_parallel_from_2 2); vm_compute; intuition congruence.
Defined.

(** C3 as stated fails in two ways. Without an MPI wrapper the predicate of
    the configured method does not hold at or above the start epoch; and
    with a start epoch of -1 epoch 0 is at or above it, yet the predicate of
    the method does not hold. *)
Lemma configured_method_predicate_fails :
  (m_parallelizationMethod data_parallel_without_mpi = dataParallelSGD
   /\ matches (m_parallelizationMethod data_parallel_without_mpi) GradientAggregation = true
   /\ m_parallelizationStartEpochNum data_parallel_without_mpi <= 0
   /\ UsingGradientAggregation data_parallel_without_mpi 0 = false
   /\ UsingParallelTrain data_parallel_without_mpi 0 = false)
  /\ (GetParallelizationMethod data_parallel_from_minus_1 = dataParallelSGD
      /\ m_parallelizationStartEpochNum data_parallel_from_minus_1 <= 0
      /\ UsingGradientAggregation data_parallel_from_minus_1 0 = false
      /\ UsingParallelTrain data_parallel_from_minus_1 0 = false).
Proof.
  repeat split; try reflexivity; vm_compute; discriminate.
Qed.

(** C4. At every epoch at most one of [UsingGradientAggregation],
    [UsingModelAggregation] and [UsingAsyncGradientAggregation] is true. *)
Theorem aggregation_predicates_exclusive (p : SGDParams) (e : Z) :
  Z.b2z (UsingGradientAggregation p e)
  + Z.b2z (UsingModelAggregation p e)
  + Z.b2z (UsingAsyncGradientAggregation p e) <= 1
  /\ UsingGradientAggregation p e && UsingModelAggregation p e = false
  /\ UsingGradientAggregation p e && UsingAsyncGradientAggregation p e = false
  /\ UsingModelAggregation p e && UsingAsyncGradientAggregation p e = false.
Proof.
  predicates_to_spec.
  destruct (GetParallelizationMethod p), (parallelizationStarted p e);
    cbn; repeat split; (reflexivity || lia).
Qed.

(** C8. With a null [m_mpi], [GetParallelizationMethod] is [none] whatever
    method is configured, and none of the four predicates holds at any epoch;
    [InitMPI] with a null pointer leaves [m_mpi] null and sets
    [m_parallelizationMethod] to [none]. *)
Theorem nullptr_mpi_no_parallel_training (p : SGDParams) :
  (m_mpi p = None ->
     GetParallelizationMethod p = none
     /\ forall e,
          UsingGradientAggregation p e = false
          /\ UsingModelAggregation p e = false
          /\ UsingAsyncGradientAggregation p e = false
          /\ UsingParallelTrain p e = false)
  /\ m_mpi (InitMPI None p) = None
  /\ m_parallelizationMethod (InitMPI None p) = none
  /\ forall e,
       UsingGradientAggregation (InitMPI None p) e = false
       /\ UsingModelAggregation (InitMPI None p) e = false
       /\ UsingAsyncGradientAggregation (InitMPI None p) e = false
       /\ UsingParallelTrain (InitMPI None p) e = false.
Proof.
  assert (Hnull : forall q, m_mpi q = None ->
            forall e,
              UsingGradientAggregation q e = false
              /\ UsingModelAggregation q e = false
              /\ UsingAsyncGradientAggregation q e = false
              /\ UsingParallelTrain q e = false).
  { intros q Hq e. predicates_to_spec.
    rewrite (GetParallelizationMethod_nullptr q Hq). cbn. auto. }
  split; [| split; [| split]].
  - intros Hmpi. split; [now apply GetParallelizationMethod_nullptr | now apply Hnull].
  - reflexivity.
  - reflexivity.
  - now apply Hnull.
Qed.

Lemma nullptr_mpi_no_parallel_training_witness :
  m_parallelizationMethod data_parallel_without_mpi = dataParallelSGD
  /\ GetParallelizationMethod data_parallel_without_mpi = none
  /\ UsingParallelTrain data_parallel_without_mpi 4 = false.
Proof.
  split; [reflexivity |].
  destruct (nullptr_mpi_no_parallel_training data_parallel_without_mpi) as [Hnull _].
  destruct (Hnull eq_refl) as [Hmethod Hpreds].
  split; [exact Hmethod | apply (Hpreds 4)].
Defined.

(** ** RMSPropInfo *)

(** C7. A default-constructed [RMSPropInfo] holds the [double]s of the
    literals 0.99, 1.2, 0.75, 10.0 and 0.1: each field is the binary64 value
    nearest to its decimal, with the bits shown. *)
Theorem RMSPropInfo_default_values :
  RMSPropInfo_default
  = {| rpi_gamma := S754_finite false 0x1FAE147AE147AE (-53);
       rpi_inc := S754_finite false 0x13333333333333 (-52);
       rpi_dec := S754_finite false 0x18000000000000 (-53);
       rpi_max := S754_finite false 0x14000000000000 (-49);
       rpi_min := S754_finite false 0x1999999999999A (-56) |}
  /\ nearest_double (rpi_gamma RMSPropInfo_default) 99 100 = true
  /\ nearest_double (rpi_inc RMSPropInfo_default) 12 10 = true
  /\ nearest_double (rpi_dec RMSPropInfo_default) 75 100 = true
  /\ nearest_double (rpi_max RMSPropInfo_default) 10 1 = true
  /\ nearest_double (rpi_min RMSPropInfo_default) 1 10 = true.
Proof. repeat split; vm_compute; reflexivity. Qed.

(** ** GradientPackage *)

Lemma IsEmpty_no_device (g : GradientPackage) :
  IsEmpty g = match first_device g with
              | Some _ => false
              | None => true
              end.
Proof.
  unfold IsEmpty, first_device.
  destruct (m_gradFloat g), (m_gradHalf g), (m_gradDouble g); reflexivity.
Qed.

(** C10. [DeviceId] raises exactly when the package is empty; otherwise it
    returns the device of the first matrix, looking at the [float] gradients
    first, then the [half] ones, then the [double] ones. *)
Theorem DeviceId_first_matrix (g : GradientPackage) :
  raises (DeviceId g) = IsEmpty g
  /\ IsEmpty g
     = vec_empty (m_gradFloat g) && vec_empty (m_gradHalf g) && vec_empty (m_gradDouble g)
  /\ DeviceId g
     = match first_device g with
       | Some device => Ok device
       | None => RuntimeError "The Gradient Package is empty."
       end.
Proof.
  unfold DeviceId, IsEmpty, first_device.
  destruct (m_gradFloat g) as [| mf fs], (m_gradHalf g) as [| mh hs],
           (m_gradDouble g) as [| md ds]; repeat split.
Qed.

(** ** Checkpoints *)

Lemma known_checkpoint_version_iff (v : Z) :
  known_checkpoint_version v = true
  <-> v = CNTK_CHECKPOINT_VERSION_1 \/ v = CNTK_CHECKPOINT_VERSION_2.
Proof.
  unfold known_checkpoint_version.
  rewrite orb_true_iff, !Z.eqb_eq. reflexivity.
Qed.

Lemma LoadCheckPointFile_unknown_version (f : CheckPointFile) :
  known_checkpoint_version (ckp_version f) = false ->
  LoadCheckPointFile f = RuntimeError "unknown checkpoint version".
Proof. intros Hv. unfold LoadCheckPointFile. now rewrite Hv. Qed.

Lemma valid_checkpoint_known_version (f : CheckPointFile) :
  valid_checkpoint f = true -> known_checkpoint_version (ckp_version f) = true.
Proof.
  unfold valid_checkpoint, LoadCheckPointFile.
  destruct (known_checkpoint_version (ckp_version f)); [reflexivity | discriminate].
Qed.

(** C6. The two format versions are 1, for a file without a version number,
    and 2, the current one. A checkpoint whose version is neither is rejected
    by [LoadCheckPointInfo] and [TryLoadCheckPointInfo] with an error, and no
    state is taken from it; an epoch without a checkpoint makes
    [TryLoadCheckPointInfo] return false, without an error. *)
Theorem checkpoint_version_checked (storage : CheckPointStorage) (epochNumber : Z) :
  (CNTK_CHECKPOINT_VERSION_1 = 1
   /\ CNTK_CHECKPOINT_VERSION_2 = 2
   /\ CURRENT_CNTK_CHECKPOINT_VERSION = CNTK_CHECKPOINT_VERSION_2
   /\ CNTK_CHECKPOINT_VERSION_1 <> CNTK_CHECKPOINT_VERSION_2)
  /\ (forall f, ckp_leading_version f = None -> ckp_version f = CNTK_CHECKPOINT_VERSION_1)
  /\ (forall f,
        storage !! Z.to_nat epochNumber = Some f ->
        ckp_version f <> CNTK_CHECKPOINT_VERSION_1 ->
        ckp_version f <> CNTK_CHECKPOINT_VERSION_2 ->
        LoadCheckPointInfo storage epochNumber = RuntimeError "unknown checkpoint version"
        /\ TryLoadCheckPointInfo storage epochNumber = RuntimeError "unknown checkpoint version")
  /\ (storage !! Z.to_nat epochNumber = None ->
        TryLoadCheckPointInfo storage epochNumber = Ok None).
Proof.
  split; [repeat split; discriminate |].
  split; [intros f Hf; unfold ckp_version; now rewrite Hf |].
  split.
  - intros f Hfile Hv1 Hv2.
    assert (Hunknown : known_checkpoint_version (ckp_version f) = false).
    { destruct (known_checkpoint_version (ckp_version f)) eqn:Hknown; [| reflexivity].
      apply known_checkpoint_version_iff in Hknown. tauto. }
    unfold TryLoadCheckPointInfo, LoadCheckPointInfo. rewrite Hfile.
    rewrite (LoadCheckPointFile_unknown_version f Hunknown). split; reflexivity.
  - intros Hmissing. unfold TryLoadCheckPointInfo. now rewrite Hmissing.
Qed.

Lemma checkpoint_version_checked_witness :
  (LoadCheckPointInfo sample_storage 5 = RuntimeError "unknown checkpoint version"
   /\ TryLoadCheckPointInfo sample_storage 5 = RuntimeError "unknown checkpoint version")
  /\ TryLoadCheckPointInfo sample_storage 2 = Ok None.
Proof.
  split.
  - destruct (checkpoint_version_checked sample_storage 5) as (_ & _ & Hreject & _).
    apply (Hreject future_file); [reflexivity | discriminate | discriminate].
  - destruct (checkpoint_version_checked sample_storage 2) as (_ & _ & _ & Hmissing).
    apply Hmissing. reflexivity.
Defined.

Lemma has_valid_checkpoint_insert (storage : CheckPointStorage) (i epoch : nat)
    (f : CheckPointFile) :
  has_valid_checkpoint (<[i := f]> storage) epoch
  <-> (epoch = i /\ valid_checkpoint f = true)
      \/ (epoch <> i /\ has_valid_checkpoint storage epoch).
Proof.
  unfold has_valid_checkpoint. split.
  - intros (g & Hg & Hvalid).
    destruct (decide (epoch = i)) as [-> | Hne].
    + rewrite lookup_insert_eq in Hg. injection Hg as <-. now left.
    + rewrite lookup_insert_ne in Hg by congruence. right. eauto.
  - intros [[-> Hvalid] | (Hne & g & Hg & Hvalid)].
    + exists f. now rewrite lookup_insert_eq.
    + exists g. rewrite lookup_insert_ne by congruence. auto.
Qed.

Lemma has_valid_checkpoint_present (storage : CheckPointStorage) (epoch : nat) :
  has_valid_checkpoint storage epoch -> storage !! epoch <> None.
Proof. intros (f & Hf & _). congruence. Qed.

Lemma DetermineStartEpoch_scan (storage : CheckPointStorage) (makeMode : bool) :
  highest_valid_epoch storage (DetermineStartEpoch storage makeMode).
Proof.
  unfold DetermineStartEpoch.
  apply (map_fold_weak_ind (fun best m => highest_valid_epoch m best)).
  - apply no_valid_epoch. intros epoch (f & Hf & _).
    rewrite lookup_empty in Hf. discriminate.
  - intros i f m best Hfresh IH.
    destruct (valid_checkpoint f) eqn:Hvalid.
    + destruct IH as [Hnone | epoch Hepoch Hmax].
      * replace (Z.max (Z.of_nat i) (-1)) with (Z.of_nat i) by lia.
        apply last_valid_epoch.
        -- apply has_valid_checkpoint_insert. now left.
        -- intros epoch' Hepoch'. apply has_valid_checkpoint_insert in Hepoch'.
           destruct Hepoch' as [[-> _] | [_ Hin]]; [lia | now apply Hnone in Hin].
      * destruct (Nat.le_gt_cases i epoch) as [Hle | Hgt].
        -- replace (Z.max (Z.of_nat i) (Z.of_nat epoch)) with (Z.of_nat epoch) by lia.
           apply last_valid_epoch.
           ++ apply has_valid_checkpoint_insert. right. split; [| assumption].
              intros ->. now apply has_valid_checkpoint_present in Hepoch.
           ++ intros epoch' Hepoch'. apply has_valid_checkpoint_insert in Hepoch'.
              destruct Hepoch' as [[-> _] | [_ Hin]]; [assumption | now apply Hmax].
        -- replace (Z.max (Z.of_nat i) (Z.of_nat epoch)) with (Z.of_nat i) by lia.
           apply last_valid_epoch.
           ++ apply has_valid_checkpoint_insert. now left.
           ++ intros epoch' Hepoch'. apply has_valid_checkpoint_insert in Hepoch'.
              destruct Hepoch' as [[-> _] | [_ Hin]]; [lia |].
              apply Hmax in Hin. lia.
    + assert (Hsame : forall epoch,
                has_valid_checkpoint (<[i := f]> m) epoch <-> has_valid_checkpoint m epoch).
      { intros epoch. rewrite has_valid_checkpoint_insert. split.
        - intros [[_ Hf] | [_ Hin]]; [congruence | assumption].
        - intros Hin. right. split; [| assumption].
          intros ->. now apply has_valid_checkpoint_present in Hin. }
      destruct IH as [Hnone | epoch Hepoch Hmax].
      * apply no_valid_epoch. intros epoch Hin. apply Hsame in Hin. now apply Hnone in Hin.
      * apply last_valid_epoch; [now apply Hsame |].
        intros epoch' Hin. apply Hsame in Hin. now apply Hmax.
Qed.

(** C5. [DetermineStartEpoch] returns the highest epoch for which the storage
    holds a valid checkpoint, and -1 when there is none; with no checkpoint
    at all it returns -1. *)
Theorem DetermineStartEpoch_highest_valid (storage : CheckPointStorage) (makeMode : bool) :
  highest_valid_epoch storage (DetermineStartEpoch storage makeMode)
  /\ (forall epoch,
        has_valid_checkpoint storage epoch ->
        Z.of_nat epoch <= DetermineStartEpoch storage makeMode)
  /\ ((forall epoch, ~ has_valid_checkpoint storage epoch) ->
        DetermineStartEpoch storage makeMode = -1)
  /\ DetermineStartEpoch ∅ makeMode = -1.
Proof.
  pose proof (DetermineStartEpoch_scan storage makeMode) as Hscan.
  split; [exact Hscan |].
  split; [| split].
  - intros epoch Hepoch. destruct Hscan as [Hnone | best Hbest Hmax].
    + now apply Hnone in Hepoch.
    + apply Hmax in Hepoch. lia.
  - intros Hnone. destruct Hscan as [_ | best Hbest Hmax]; [reflexivity |].
    now apply Hnone in Hbest.
  - reflexivity.
Qed.

Lemma DetermineStartEpoch_highest_valid_witness :
  Z.of_nat 3 <= DetermineStartEpoch sample_storage true
  /\ DetermineStartEpoch sample_storage true = 3
  /\ DetermineStartEpoch (<[5%nat := future_file]> ∅) true = -1.
Proof.
  split; [| split].
  - destruct (DetermineStartEpoch_highest_valid sample_storage true) as (_ & Hbound & _).
    apply Hbound. exists current_file. split; reflexivity.
  - reflexivity.
  - destruct (DetermineStartEpoch_highest_valid (<[5%nat := future_file]> ∅) true)
      as (_ & _ & Hnone & _).
    apply Hnone. intros epoch (f & Hf & Hvalid).
    destruct (decide (epoch = 5%nat)) as [-> | Hne].
    + rewrite lookup_insert_eq in Hf. injection Hf as <-. discriminate.
    + rewrite lookup_insert_ne in Hf by congruence. rewrite lookup_empty in Hf. discriminate.
Defined.

(** * Further properties of the headers *)

(** ** InitMPI *)

(** X1. After [InitMPI], whatever the pointer, [m_mpi] is the pointer given
    and the method [GetParallelizationMethod] returns is the stored
    [m_parallelizationMethod]: the configured one for a non-null pointer,
    [none] for a null one. *)
Theorem InitMPI_method_in_effect (mpi : MPIWrapperPtr) (p : SGDParams) :
  m_mpi (InitMPI mpi p) = mpi
  /\ GetParallelizationMethod (InitMPI mpi p) = m_parallelizationMethod (InitMPI mpi p)
  /\ m_parallelizationMethod (InitMPI mpi p)
     = match mpi with
       | Some _ => m_parallelizationMethod p
       | None => none
       end.
Proof. destruct mpi; repeat split. Qed.

(** X2. [InitMPI] with a null pointer loses the configured method: a later
    [InitMPI] with a wrapper does not bring it back, and no parallel-training
    predicate holds at any epoch afterwards. *)
Theorem InitMPI_nullptr_not_undone (w : MPIWrapper) (p : SGDParams) (e : Z) :
  let q := InitMPI (Some w) (InitMPI None p) in
  m_mpi q = Some w
  /\ GetParallelizationMethod q = none
  /\ UsingGradientAggregation q e = false
  /\ UsingModelAggregation q e = false
  /\ UsingAsyncGradientAggregation q e = false
  /\ UsingParallelTrain q e = false.
Proof.
  intros q.
  assert (Hmethod : GetParallelizationMethod q = none) by reflexivity.
  split; [reflexivity |]. split; [exact Hmethod |].
  predicates_to_spec. rewrite Hmethod. repeat split.
Qed.


(** ** The parallel-training predicates *)

Lemma parallelizationStarted_mono (p : SGDParams) (e e' : Z) :
  e <= e' -> parallelizationStarted p e = true -> parallelizationStarted p e' = true.
Proof.
  unfold parallelizationStarted. intros Hle Hstart.
  apply Z.leb_le in Hstart. apply Z.leb_le. lia.
Qed.

(** X4. Parallel training does not switch off: a predicate that holds at an
    epoch holds at every later epoch. *)
Theorem parallel_predicates_monotone (p : SGDParams) (e e' : Z) :
  e <= e' ->
  (UsingGradientAggregation p e = true -> UsingGradientAggregation p e' = true)
  /\ (UsingModelAggregation p e = true -> UsingModelAggregation p e' = true)
  /\ (UsingAsyncGradientAggregation p e = true -> UsingAsyncGradientAggregation p e' = true)
  /\ (UsingParallelTrain p e = true -> UsingParallelTrain p e' = true).
Proof.
  intros Hle. predicates_to_spec.
  repeat split; intros Hholds; apply andb_true_iff in Hholds as [Hmatch Hstart];
    rewrite Hmatch, (parallelizationStarted_mono p e e' Hle Hstart); reflexivity.
Qed.

Lemma parallel_predicates_monotone_witness :
  UsingGradientAggregation data_parallel_from_2 2 = true
  /\ UsingGradientAggregation data_parallel_from_2 7 = true
  /\ UsingParallelTrain data_parallel_from_2 7 = true.
Proof.
  destruct (parallel_predicates_monotone data_parallel_from_2 2 7) as (Hga & _ & _ & Hpt);
    [lia |].
  split; [reflexivity |]. split; [apply Hga | apply Hpt]; reflexivity.
Defined.

(** X5. [UsingParallelTrain] holds exactly when one, and then only one, of
    the three aggregation predicates holds. *)
Theorem UsingParallelTrain_exactly_one (p : SGDParams) (e : Z) :
  Z.b2z (UsingGradientAggregation p e)
  + Z.b2z (UsingModelAggregation p e)
  + Z.b2z (UsingAsyncGradientAggregation p e)
  = Z.b2z (UsingParallelTrain p e).
Proof.
  predicates_to_spec.
  destruct (GetParallelizationMethod p), (parallelizationStarted p e); reflexivity.
Qed.

(** X6. With [modelParallelSGD] configured, the method marked unsupported,
    no parallel-training predicate holds at any epoch, with or without an MPI
    wrapper and whatever the start epoch. *)
Theorem modelParallelSGD_never_parallel (p : SGDParams) (e : Z) :
  m_parallelizationMethod p = modelParallelSGD ->
  UsingGradientAggregation p e = false
  /\ UsingModelAggregation p e = false
  /\ UsingAsyncGradientAggregation p e = false
  /\ UsingParallelTrain p e = false.
Proof.
  intros Hmethod. predicates_to_spec.
  unfold GetParallelizationMethod. rewrite Hmethod.
  destruct (m_mpi p); repeat split.
Qed.

Lemma modelParallelSGD_never_parallel_witness :
  UsingGradientAggregation model_parallel 3 = false
  /\ UsingModelAggregation model_parallel 3 = false
  /\ UsingAsyncGradientAggregation model_parallel 3 = false
  /\ UsingParallelTrain model_parallel 3 = false.
Proof. apply (modelParallelSGD_never_parallel model_parallel 3). reflexivity. Defined.

(** X7. With a negative start epoch the gate compares against the [size_t]
    the start epoch converts to, so no predicate holds at any epoch below
    2^64 - 2^31. *)
Theorem negative_start_epoch_never_started (p : SGDParams) (e : Z) :
  CInt.is_int (m_parallelizationStartEpochNum p) ->
  m_parallelizationStartEpochNum p < 0 ->
  e < CInt.SIZE_MODULUS - 2 ^ 31 ->
  UsingGradientAggregation p e = false
  /\ UsingModelAggregation p e = false
  /\ UsingAsyncGradientAggregation p e = false
  /\ UsingParallelTrain p e = false.
Proof.
  intros Hint Hneg He. predicates_to_spec.
  rewrite (parallelizationStarted_negative p e Hint Hneg).
  destruct Hint as [Hmin _]. unfold CInt.INT_MIN in Hmin.
  destruct (Z.leb_spec (m_parallelizationStartEpochNum p + CInt.SIZE_MODULUS) e); [lia |].
  now rewrite !andb_false_r.
Qed.

Lemma negative_start_epoch_never_started_witness :
  UsingGradientAggregation data_parallel_from_minus_1 1000 = false
  /\ UsingModelAggregation data_parallel_from_minus_1 1000 = false
  /\ UsingAsyncGradientAggregation data_parallel_from_minus_1 1000 = false
  /\ UsingParallelTrain data_parallel_from_minus_1 1000 = false.
Proof.
  apply (negative_start_epoch_never_started data_parallel_from_minus_1 1000).
  - vm_compute. intuition congruence.
  - reflexivity.
  - reflexivity.
Defined.

(** X8. The values of [ParallelizationMethod] are pairwise different; the
    data-parallel methods fit the lower 8 bits and [modelParallelSGD] is bit
    0 of the next 8, with nothing in the lower 8. *)
Theorem method_value_layout (a b : ParallelizationMethod) :
  (method_value a = method_value b -> a = b)
  /\ Z.shiftr (method_value a) 8 = (if method_eqb a modelParallelSGD then 1 else 0)
  /\ Z.land (method_value a) 255
     = (if method_eqb a modelParallelSGD then method_value none else method_value a).
Proof.
  split; [| split].
  - destruct a, b; (reflexivity || discriminate).
  - destruct a; reflexivity.
  - destruct a; reflexivity.
Qed.

Lemma method_value_layout_witness :
  method_value blockMomentumSGD = method_value blockMomentumSGD
  /\ blockMomentumSGD = blockMomentumSGD.
Proof.
  split; [reflexivity |].
  apply (method_value_layout blockMomentumSGD blockMomentumSGD). reflexivity.
Defined.

(** ** SynchronizeWorkers *)

(** X9. [SynchronizeWorkers] waits at no barrier without an MPI wrapper and
    at exactly one with a wrapper: the ASGD helper's when the configured
    method is [dataParallelASGD], the wrapper's own for every other method,
    [none] included. It never waits at both. *)
Theorem SynchronizeWorkers_one_barrier (p : SGDParams) :
  SynchronizeWorkers p
  = match m_mpi p with
    | None => []
    | Some mpi =>
      match m_parallelizationMethod p with
      | dataParallelASGD => [ASGDHelperWaitAll]
      | _ => [MPIWaitAll mpi]
      end
    end.
Proof.
  unfold SynchronizeWorkers, GetParallelizationMethod.
  destruct (m_mpi p) as [mpi |]; [| reflexivity].
  destruct (m_parallelizationMethod p); reflexivity.
Qed.

(** X10. The barrier follows the predicates but is not gated by the epoch:
    where [UsingAsyncGradientAggregation] holds the barrier is the ASGD
    helper's, where [UsingGradientAggregation] or [UsingModelAggregation]
    holds it is the MPI wrapper's, and with a wrapper there is a barrier
    also at the epochs where [UsingParallelTrain] does not hold. *)
Theorem SynchronizeWorkers_follows_predicates (p : SGDParams) (e : Z) :
  (UsingAsyncGradientAggregation p e = true ->
     SynchronizeWorkers p = [ASGDHelperWaitAll])
  /\ (UsingGradientAggregation p e || UsingModelAggregation p e = true ->
        exists mpi, m_mpi p = Some mpi /\ SynchronizeWorkers p = [MPIWaitAll mpi])
  /\ (UsingParallelTrain p e = false ->
        forall mpi, m_mpi p = Some mpi -> List.length (SynchronizeWorkers p) = 1%nat).
Proof.
  rewrite SynchronizeWorkers_one_barrier. predicates_to_spec.
  unfold GetParallelizationMethod.
  destruct (m_mpi p) as [mpi |].
  - split; [| split].
    + destruct (m_parallelizationMethod p); cbn; (discriminate || reflexivity).
    + intros Hholds. exists mpi. split; [reflexivity |].
      destruct (m_parallelizationMethod p); cbn in Hholds; (discriminate || reflexivity).
    + intros _ mpi' _. destruct (m_parallelizationMethod p); reflexivity.
  - cbn. split; [discriminate |]. split; [discriminate |].
    intros _ mpi' Hmpi. discriminate.
Qed.

Lemma SynchronizeWorkers_follows_predicates_witness :
  SynchronizeWorkers async_from_2 = [ASGDHelperWaitAll]
  /\ (exists mpi, m_mpi data_parallel_from_2 = Some mpi
                  /\ SynchronizeWorkers data_parallel_from_2 = [MPIWaitAll mpi])
  /\ List.length (SynchronizeWorkers data_parallel_from_2) = 1%nat.
Proof.
  split; [| split].
  - destruct (SynchronizeWorkers_follows_predicates async_from_2 2) as (Hasync & _ & _).
    apply Hasync. reflexivity.
  - destruct (SynchronizeWorkers_follows_predicates data_parallel_from_2 2) as (_ & Hsync & _).
    apply Hsync. reflexivity.
  - destruct (SynchronizeWorkers_follows_predicates data_parallel_from_2 1) as (_ & _ & Hearly).
    apply (Hearly eq_refl two_nodes). reflexivity.
Defined.

(** ** The fix-up and the per-sample conversions *)

Lemma size_mul_one (a : Z) : CInt.is_size_t a -> CInt.size_mul a 1 = a.
Proof.
  intros Ha. unfold CInt.size_mul. rewrite Z.mul_1_r. now apply to_size_t_small.
Qed.

(** X11. With a single parallel sequence the fix-up changes nothing, with or
    without truncation, so the learning rate per sample is the rate divided
    by the size the schedule specifies. *)
Theorem single_sequence_no_fix_up (p : SGDParams) (e specified : Z) :
  (CInt.is_size_t specified -> FixUpEffectiveMBSize p specified 1 = Ok specified)
  /\ GetLearningRatePerSample p e 1
     = Ok (Float64.of_float32
             (Float32.div (av_at (m_learningRatesParam p) e)
                (Float32.of_size_t
                   (CInt.to_size_t (av_at (m_learningRatesSpecifiedForMBSize p) e))))).
Proof.
  assert (Hone : forall s, CInt.is_size_t s -> FixUpEffectiveMBSize p s 1 = Ok s).
  { intros s Hs. unfold FixUpEffectiveMBSize.
    destruct (m_truncated p && (1 <? s)); [| reflexivity].
    cbn. now rewrite size_mul_one. }
  split; [apply Hone |].
  unfold GetLearningRatePerSample. rewrite Hone by apply to_size_t_range. reflexivity.
Qed.

Lemma single_sequence_no_fix_up_witness :
  FixUpEffectiveMBSize truncated_per_minibatch 20 1 = Ok 20.
Proof.
  apply (single_sequence_no_fix_up truncated_per_minibatch 0 20).
  vm_compute. intuition congruence.
Defined.

(** X12. For a schedule entry that is an [int] greater than 1 and fewer than
    2^32 parallel sequences the product of the fix-up does not wrap: under
    truncation the effective size is the exact product, at least the
    specified size. *)
Theorem FixUpEffectiveMBSize_exact_product (p : SGDParams) (s n : Z) :
  m_truncated p = true ->
  CInt.is_int s ->
  1 < s ->
  0 < n < 2 ^ 32 ->
  FixUpEffectiveMBSize p (CInt.to_size_t s) n = Ok (s * n)
  /\ s <= s * n.
Proof.
  intros Htrunc Hint Hs Hn.
  rewrite (to_size_t_int_nonneg s Hint) by lia.
  rewrite FixUpEffectiveMBSize_per_minibatch by (assumption || lia).
  destruct Hint as [_ Hmax]. unfold CInt.INT_MAX in Hmax.
  assert (Hprod : 0 <= s * n < CInt.SIZE_MODULUS).
  { rewrite SIZE_MODULUS_value. nia. }
  split; [| nia].
  unfold CInt.size_mul. now rewrite Z.mod_small.
Qed.

Lemma FixUpEffectiveMBSize_exact_product_witness :
  FixUpEffectiveMBSize truncated_per_minibatch (CInt.to_size_t 20) 16 = Ok (20 * 16)
  /\ 20 <= 20 * 16.
Proof.
  apply (FixUpEffectiveMBSize_exact_product truncated_per_minibatch 20 16).
  - reflexivity.
  - vm_compute. intuition congruence.
  - reflexivity.
  - split; reflexivity.
Defined.

(** X13. A negative schedule entry becomes a [size_t] above 1 when it is
    passed to the fix-up, so under truncation it counts as a rate per
    minibatch: with zero parallel sequences [GetLearningRatePerSample] and
    [GetMomentumPerSample] raise. *)
Theorem negative_size_counts_as_per_minibatch
    (pow : spec_float -> spec_float -> spec_float) (p : SGDParams) (e : Z) :
  m_truncated p = true ->
  (CInt.is_int (av_at (m_learningRatesSpecifiedForMBSize p) e) ->
   av_at (m_learningRatesSpecifiedForMBSize p) e < 0 ->
   raises (GetLearningRatePerSample p e 0) = true)
  /\ (CInt.is_int (av_at (m_momentumSpecifiedForMBSize p) e) ->
      av_at (m_momentumSpecifiedForMBSize p) e < 0 ->
      raises (GetMomentumPerSample pow p e 0) = true).
Proof.
  intros Htrunc.
  assert (Hraise : forall s, CInt.is_int s -> s < 0 ->
            raises (FixUpEffectiveMBSize p (CInt.to_size_t s) 0) = true).
  { intros s Hint Hneg. rewrite FixUpEffectiveMBSize_raises, Htrunc.
    rewrite (to_size_t_negative s Hint Hneg), SIZE_MODULUS_value.
    destruct Hint as [Hmin _]. unfold CInt.INT_MIN in Hmin.
    destruct (Z.ltb_spec 1 (s + 18446744073709551616)); [reflexivity | lia]. }
  split; intros Hint Hneg.
  - unfold GetLearningRatePerSample. rewrite raises_bind_Ok. now apply Hraise.
  - unfold GetMomentumPerSample. rewrite raises_bind_Ok. now apply Hraise.
Qed.

Lemma negative_size_counts_as_per_minibatch_witness :
  raises (GetLearningRatePerSample truncated_negative_size 0 0) = true.
Proof.
  destruct (negative_size_counts_as_per_minibatch (fun x _ => x) truncated_negative_size 0)
    as [Hlr _]; [reflexivity |].
  apply Hlr; [vm_compute; intuition congruence | reflexivity].
Defined.

(** X14. A specified size of 0 is no error: it is never fixed up, and the
    division by it makes the learning rate per sample an infinity of the
    sign of a finite rate, and a NaN for a rate of zero. *)
Theorem zero_size_infinite_rate (p : SGDParams) (e n : Z) :
  CInt.to_size_t (av_at (m_learningRatesSpecifiedForMBSize p) e) = 0 ->
  (forall s m ex,
     av_at (m_learningRatesParam p) e = S754_finite s m ex ->
     GetLearningRatePerSample p e n = Ok (S754_infinity s))
  /\ (forall s,
        av_at (m_learningRatesParam p) e = S754_zero s ->
        GetLearningRatePerSample p e n = Ok S754_nan).
Proof.
  intros Hzero. unfold GetLearningRatePerSample. rewrite Hzero.
  rewrite FixUpEffectiveMBSize_per_sample by lia.
  split.
  - intros s m ex ->. cbn. now destruct s.
  - intros s ->. reflexivity.
Qed.

Lemma zero_size_infinite_rate_witness :
  GetLearningRatePerSample zero_size 3 4 = Ok (S754_infinity false).
Proof.
  destruct (zero_size_infinite_rate zero_size 3 4) as [Hfinite _]; [reflexivity |].
  apply (Hfinite false 8388608%positive (-24)). reflexivity.
Defined.

(** X15. For a momentum given per sample (specified size 1) the exponent of
    [pow] is exactly 1.0, whatever the truncation and the number of parallel
    sequences, and nothing is raised. *)
Theorem per_sample_momentum_exponent_one
    (pow : spec_float -> spec_float -> spec_float) (p : SGDParams) (e n : Z) :
  CInt.to_size_t (av_at (m_momentumSpecifiedForMBSize p) e) = 1 ->
  GetMomentumPerSample pow p e n
  = Ok (pow (Float64.of_float32 (av_at (m_momentumParam p) e)) Float64.one).
Proof.
  intros Hone. unfold GetMomentumPerSample. rewrite Hone.
  rewrite FixUpEffectiveMBSize_per_sample by lia. reflexivity.
Qed.

Lemma per_sample_momentum_exponent_one_witness :
  GetMomentumPerSample (fun x _ => x) truncated_per_sample 0 8
  = Ok (Float64.of_float32 (av_at (m_momentumParam truncated_per_sample) 0)).
Proof.
  apply (per_sample_momentum_exponent_one (fun x _ => x) truncated_per_sample 0 8).
  reflexivity.
Defined.

(** ** GradientPackage *)

(** X16. The device [DeviceId] returns is the device of a matrix of the
    package; when all matrices of a package that is not empty are on one
    device, [DeviceId] returns that device. *)
Theorem DeviceId_of_package (g : GradientPackage) (d : Z) :
  (DeviceId g = Ok d -> List.In d (package_devices g))
  /\ (IsEmpty g = false ->
      (forall d', List.In d' (package_devices g) -> d' = d) ->
      DeviceId g = Ok d).
Proof.
  unfold DeviceId, IsEmpty, package_devices.
  destruct (m_gradFloat g) as [| mf fs], (m_gradHalf g) as [| mh hs],
           (m_gradDouble g) as [| md ds]; cbn; split;
    try (intros Hd; injection Hd as <-; now left);
    try discriminate;
    intros _ Hall; rewrite (Hall _ (or_introl eq_refl)); reflexivity.
Qed.

Lemma DeviceId_of_package_witness :
  DeviceId all_on_device_2 = Ok 2 /\ List.In 2 (package_devices all_on_device_2).
Proof.
  destruct (DeviceId_of_package all_on_device_2 2) as [Hin Hsame].
  assert (Hd : DeviceId all_on_device_2 = Ok 2).
  { apply Hsame; [reflexivity |].
    cbn. intros d' Hd'. intuition congruence. }
  split; [exact Hd | exact (Hin Hd)].
Defined.
